(** * unstructured-ingest: the Downloader contract and the GCS connector

    A shallow embedding of

      - [unstructured_ingest/v2/interfaces/downloader.py]
        ([DownloaderConfig], [DownloadResponse], [Downloader]);
      - [unstructured_ingest/v2/processes/connectors/fsspec/gcs.py]
        ([GcsAccessConfig.model_post_init], the Gcs classes and the two
        registry entries).

    Python values are modelled by their Rocq counterparts: [str] by
    [string], [Optional[T]] by [option T], a call that may raise by
    [Result], a method that mutates [self] by explicit state passing.
    [pathlib.Path] is modelled with the POSIX flavour. *)

From Stdlib Require Import String Ascii List Bool ZArith Lia.
Import ListNotations.
Local Open Scope string_scope.
Local Open Scope list_scope.

(** ** Python primitives *)

Module Py.

(** The exceptions that the embedded code raises or lets through. *)
Inductive exn : Type :=
| ValueError (msg : string)
| TypeError (msg : string)
| OSError (msg : string)
| ValidationError (msg : string).

Inductive Result (A : Type) : Type :=
| Ok (a : A)
| Raise (e : exn).
Arguments Ok {A} a.
Arguments Raise {A} e.

Definition bind {A B : Type} (r : Result A) (k : A -> Result B) : Result B :=
  match r with
  | Ok a => k a
  | Raise e => Raise e
  end.

Definition is_ok {A : Type} (r : Result A) : bool :=
  match r with Ok _ => true | Raise _ => false end.

(** [bool(s)] for a [str]: the empty string is falsy. *)
Definition truthy_str (s : string) : bool :=
  match s with
  | EmptyString => false
  | String _ _ => true
  end.

(** [bool(x)] for an [Optional[str]]: [None] and the empty string are falsy. *)
Definition truthy_opt_str (o : option string) : bool :=
  match o with
  | None => false
  | Some s => truthy_str s
  end.

(** [bool(x)] for an [Optional] object without [__bool__] or [__len__]. *)
Definition truthy_opt_obj {A : Type} (o : option A) : bool :=
  match o with
  | None => false
  | Some _ => true
  end.

Definition sep : ascii := "/"%char.

(** [s.startswith("/")] *)
Definition startswith_sep (s : string) : bool :=
  match s with
  | String c _ => Ascii.eqb c sep
  | EmptyString => false
  end.

(** [s[1:]] *)
Definition slice_from_1 (s : string) : string :=
  match s with
  | String _ s' => s'
  | EmptyString => EmptyString
  end.

(** [s.lstrip("/")] *)
Fixpoint lstrip_sep (s : string) : string :=
  match s with
  | String c s' => if Ascii.eqb c sep then lstrip_sep s' else s
  | EmptyString => EmptyString
  end.

(** [s.split("/")]: never empty, the empty string splits into one empty
    piece. *)
Fixpoint split_sep (s : string) : list string :=
  match s with
  | EmptyString => [EmptyString]
  | String c s' =>
      if Ascii.eqb c sep then EmptyString :: split_sep s'
      else match split_sep s' with
           | h :: t => String c h :: t
           | [] => [String c EmptyString]
           end
  end.

(** [x in tup] for a tuple of strings. *)
Fixpoint str_in (x : string) (tup : list string) : bool :=
  match tup with
  | [] => false
  | y :: tup' => String.eqb x y || str_in x tup'
  end.

End Py.

(** ** [pathlib], POSIX flavour *)

Module Pathlib.
Import Py.

(** A parsed pure path: the root (empty, one slash or two slashes) and
    the components after it.  The drive is always empty on POSIX. *)
Record Path : Type := mkPath { root : string; tail : list string }.

(** [posixpath.splitroot]: exactly two leading slashes are kept as a root
    of their own, one or more than two collapse to a single slash. *)
Definition splitroot (s : string) : string * string :=
  if startswith_sep s then
    let stripped := lstrip_sep s in
    if Nat.eqb (String.length s - String.length stripped) 2
    then ("//", stripped)
    else ("/", stripped)
  else (EmptyString, s).

(** The component filter of [_parse_path]:
    [[x for x in rel.split(sep) if x and x != '.']]. *)
Definition keep_component (x : string) : bool :=
  truthy_str x && negb (String.eqb x ".").

(** [Path(s)] *)
Definition parse (s : string) : Path :=
  let (r, rel) := splitroot s in
  mkPath r (filter keep_component (split_sep rel)).

Definition is_absolute (p : Path) : bool := truthy_str (root p).

(** [a / b] for two paths: an absolute right operand replaces the left
    one, a relative one is appended. *)
Definition joinpath (a b : Path) : Path :=
  if is_absolute b then b
  else mkPath (root a) (tail a ++ tail b).

(** [a / s] for a string segment. *)
Definition joinstr (a : Path) (s : string) : Path := joinpath a (parse s).

Fixpoint is_prefix (l m : list string) : bool :=
  match l, m with
  | [], _ => true
  | x :: l', y :: m' => String.eqb x y && is_prefix l' m'
  | _ :: _, [] => false
  end.

(** [p.is_relative_to(base)]: same anchor, and the components of [base]
    are a prefix of those of [p]. *)
Definition is_relative_to (p base : Path) : bool :=
  String.eqb (root p) (root base) && is_prefix (tail base) (tail p).

(** [str(p)] *)
Definition to_string (p : Path) : string :=
  match tail p with
  | [] => if truthy_str (root p) then root p else "."
  | _ => root p ++ String.concat "/" (tail p)
  end.

End Pathlib.

Infix "//" := Pathlib.joinpath (at level 40, left associativity).

(** ** File descriptors *)

Module FileDataModel.

(** Modelled from the spec: the declarations of [FileData],
    [SourceIdentifiers] and the metadata record live in
    [v2/interfaces/file_data.py], which is not among the sources.  The
    records carry the attributes that the Downloader reads: the source
    identifiers with their relative path, and the string-encoded
    date-modified and date-created metadata. *)
Record SourceIdentifiers : Type :=
  mkSourceIdentifiers { relative_path : option string }.

Record FileDataSourceMetadata : Type :=
  mkMetadata { date_modified : option string; date_created : option string }.

Record FileData : Type :=
  mkFileData {
    source_identifiers : option SourceIdentifiers;
    metadata : FileDataSourceMetadata
  }.

End FileDataModel.

(** ** [v2/interfaces/downloader.py] *)

Module DownloaderConfig.
Import Pathlib.

(** [class DownloaderConfig(BaseModel)] *)
Record t : Type := mk { download_dir : option Path }.

End DownloaderConfig.

Module Downloader.
Import Py Pathlib FileDataModel.

(** [class DownloadResponse(TypedDict)] *)
Record DownloadResponse : Type :=
  mkDownloadResponse { file_data : FileData; path : Path }.

(** The attributes of a [Downloader] instance.  The configuration object
    is owned by the instance; assigning to one of its fields is modelled
    by returning the updated instance. *)
Record t : Type :=
  mk { connector_type : string; download_config : DownloaderConfig.t }.

(** What the [download_dir] property reads from its surroundings:
    [Path.home()] and the file-system dependent [Path.resolve]. *)
Record Env : Type := mkEnv { home : Path; resolve : Path -> Path }.

(** The expression under [.resolve()] in [download_dir]. *)
Definition default_dir_unresolved (env : Env) (self : t) : Path :=
  joinstr
    (joinstr (joinstr (joinstr (joinstr (home env) ".cache") "unstructured")
                "ingest") "download")
    (connector_type self).

(** [Downloader.download_dir] (a property): the value returned and the
    instance after the call. *)
Definition download_dir (env : Env) (self : t) : Path * t :=
  match DownloaderConfig.download_dir (download_config self) with
  | None =>
      let d := resolve env (default_dir_unresolved env self) in
      (d, mk (connector_type self) (DownloaderConfig.mk (Some d)))
  | Some d => (d, self)
  end.

(** [rel_path[1:] if rel_path.startswith("/") else rel_path] *)
Definition strip_leading_sep (rel_path : string) : string :=
  if startswith_sep rel_path then slice_from_1 rel_path else rel_path.

(** [Downloader.get_download_path] *)
Definition get_download_path (env : Env) (self : t) (file_data : FileData)
  : option Path * t :=
  match source_identifiers file_data with
  | None => (None, self)
  | Some ids =>
      let rel_path := relative_path ids in
      if negb (truthy_opt_str rel_path) then (None, self)
      else
        match rel_path with
        | None => (None, self)
        | Some rel_path =>
            let rel_path := strip_leading_sep rel_path in
            let (dir, self') := download_dir env self in
            (Some (dir // parse rel_path), self')
        end
  end.

(** [Downloader.is_async] *)
Definition is_async (self : t) : bool := true.

(** *** Timestamps

    [float] and [os.utime] belong to the interpreter and the operating
    system; the code is embedded over them. *)
Section Timestamps.

(** Python floats. *)
Variable F : Type.
(** [float(s)] for a string: [None] stands for [ValueError]. *)
Variable float : string -> option F.
(** The state of the local file system. *)
Variable FS : Type.
(** [os.utime(path, times=(atime, mtime))] *)
Variable utime : Path -> F * F -> FS -> Result FS.

(** [Downloader.is_float] *)
Definition is_float (value : string) : bool :=
  match float value with
  | Some _ => true
  | None => false
  end.

(** [float(value)] as a statement that may raise. *)
Definition float_or_raise (value : string) : Result F :=
  match float value with
  | Some x => Ok x
  | None => Raise (ValueError "could not convert string to float")
  end.

(** The test of the [if] in [generate_download_response].  [and] short
    circuits: an absent or empty string never reaches [is_float]. *)
Definition restores_timestamps (file_data : FileData) : bool :=
  match date_modified (metadata file_data) with
  | Some dm =>
      truthy_str dm && is_float dm &&
      match date_created (metadata file_data) with
      | Some dc => truthy_str dc && is_float dc
      | None => false
      end
  | None => false
  end.

(** [Downloader.generate_download_response]: the response and the file
    system after the call. *)
Definition generate_download_response
  (self : t) (file_data : FileData) (download_path : Path) (fs : FS)
  : Result (DownloadResponse * FS) :=
  bind
    (if restores_timestamps file_data then
       match date_modified (metadata file_data),
             date_created (metadata file_data) with
       | Some dm, Some dc =>
           bind (float_or_raise dm) (fun date_modified =>
           bind (float_or_raise dc) (fun date_created =>
           utime download_path (date_created, date_modified) fs))
       | _, _ => Raise (TypeError "float() argument must be a string")
       end
     else Ok fs)
    (fun fs' => Ok (mkDownloadResponse file_data download_path, fs')).

End Timestamps.

Arguments is_float {F} float value.
Arguments float_or_raise {F} float value.
Arguments restores_timestamps {F} float file_data.
Arguments generate_download_response {F} float {FS} utime self file_data
  download_path fs.

End Downloader.

(** *** Repeated use of one instance

    The calls of the class that may assign to the configuration object, as
    a pipeline issues them one after the other on the same instance. *)

Module Lifetime.
Import Pathlib FileDataModel.

Inductive access : Type :=
| ReadDownloadDir
| CallGetDownloadPath (file_data : FileData).

Definition step (env : Downloader.Env) (a : access) (self : Downloader.t)
  : Downloader.t :=
  match a with
  | ReadDownloadDir => snd (Downloader.download_dir env self)
  | CallGetDownloadPath fd => snd (Downloader.get_download_path env self fd)
  end.

(** Each access comes with the surroundings in force when it happens:
    the home directory and the file system may change between calls. *)
Fixpoint steps (l : list (Downloader.Env * access)) (self : Downloader.t)
  : Downloader.t :=
  match l with
  | [] => self
  | (env, a) :: l' => steps l' (step env a self)
  end.

End Lifetime.

(** *** [run] and [run_async]

    [run] is abstract in [Downloader]; [run_async] has a default body.  A
    subclass is the pair of methods it defines itself, and a call on an
    instance of the subclass looks the method up there first. *)

Module Dispatch.
Import Py FileDataModel.

(** [download_responses = Union[list[DownloadResponse], DownloadResponse]] *)
Inductive download_responses : Type :=
| One (r : Downloader.DownloadResponse)
| Many (rs : list Downloader.DownloadResponse).

Section Classes.

(** Whatever a backend reads and writes: remote store, local disk. *)
Variable World : Type.
(** The keyword options passed through as [**kwargs]. *)
Variable Kwargs : Type.

(** A call: it may raise, may change the world and the instance. *)
Definition Call (A : Type) : Type :=
  World -> Result (A * Downloader.t * World).

(** A coroutine object: the body of an [async def], suspended.  Creating
    it runs nothing; [await] runs the body. *)
Inductive Coroutine (A : Type) : Type :=
| Suspended (body : Call A).
Arguments Suspended {A} body.

Definition await {A : Type} (c : Coroutine A) : Call A :=
  match c with Suspended body => body end.

Definition RunMethod : Type :=
  Downloader.t -> FileData -> Kwargs -> Call download_responses.
Definition RunAsyncMethod : Type :=
  Downloader.t -> FileData -> Kwargs -> Coroutine download_responses.

(** The two methods as a concrete subclass of [Downloader] defines
    them; [None] for a method the subclass does not define. *)
Record Subclass : Type :=
  mkSubclass { run : option RunMethod; run_async : option RunAsyncMethod }.

(** [self.run(file_data=file_data, **kwargs)] on an instance of [C].  The
    base class only declares [run] ([@abstractmethod], body [pass]), so
    a class that can be instantiated defines it. *)
Definition call_run (C : Subclass) : RunMethod :=
  match run C with
  | Some f => f
  | None =>
      fun _ _ _ _ =>
        Raise (TypeError "Can't instantiate abstract class with abstract method run")
  end.

(** [Downloader.run_async] *)
Definition Downloader_run_async (C : Subclass) : RunAsyncMethod :=
  fun self file_data kwargs =>
    Suspended (fun w => call_run C self file_data kwargs w).

(** [self.run_async(file_data, **kwargs)] on an instance of [C]. *)
Definition call_run_async (C : Subclass) : RunAsyncMethod :=
  match run_async C with
  | Some f => f
  | None => Downloader_run_async C
  end.

End Classes.

Arguments Suspended {World A} body.
Arguments await {World A} c.
Arguments mkSubclass {World Kwargs} run run_async.
Arguments run {World Kwargs} s.
Arguments run_async {World Kwargs} s.
Arguments call_run {World Kwargs} C.
Arguments call_run_async {World Kwargs} C.
Arguments Downloader_run_async {World Kwargs} C.

End Dispatch.

(** ** [v2/processes/connectors/fsspec/gcs.py] *)

Module Gcs.
Import Py Pathlib.

Definition CONNECTOR_TYPE : string := "gcs".

(** What [json.loads] may return. *)
#[warnings="-register-all"]
Inductive json : Type :=
| JNull
| JBool (b : bool)
| JNumber (lexeme : string)
| JString (s : string)
| JArray (items : list json)
| JObject (members : list (string * json)).

(** [token: Union[str, dict, None]]; [None] is [option]'s. *)
Inductive Token : Type :=
| TokenStr (s : string)
| TokenDict (members : list (string * json)).

(** [class GcsAccessConfig(FsspecAccessConfig)] *)
Record GcsAccessConfig : Type :=
  mkGcsAccessConfig {
    service_account_key : option string;
    token : option Token
  }.

Definition ALLOWED_AUTH_VALUES : list string :=
  ["google_default"; "cache"; "anon"; "browser"; "cloud"].

Definition with_token (self : GcsAccessConfig) (tok : option Token)
  : GcsAccessConfig :=
  mkGcsAccessConfig (service_account_key self) tok.

Section PostInit.

(** [unstructured_ingest.utils.string_and_date_utils.json_to_dict]: the
    helper is outside the sources; it returns the parsed JSON value, or
    the string itself ([JString]) when it does not parse. *)
Variable json_to_dict : string -> json.
(** [Path.is_file], a question to the file system: it answers, or lets
    an [OSError] of the system through (a name too long, for one). *)
Variable is_file : Path -> Result bool.
(** What pydantic makes of an exception that escapes from the hook
    before it reaches the caller of the constructor. *)
Variable validation_error : exn -> exn.

(** [isinstance(v, dict)] *)
Definition is_dict (v : json) : bool :=
  match v with
  | JObject _ => true
  | _ => false
  end.

(** [GcsAccessConfig.model_post_init]: the instance after the hook, or
    the exception it raises. *)
Definition model_post_init (self : GcsAccessConfig) : Result GcsAccessConfig :=
  (* Case: null value *)
  if negb (truthy_opt_str (service_account_key self)) then Ok self
  else
    match service_account_key self with
    | None => Ok self
    | Some key =>
        (* Case: one of auth constants *)
        if str_in key ALLOWED_AUTH_VALUES then
          Ok (with_token self (Some (TokenStr key)))
        (* Case: token as json *)
        else if is_dict (json_to_dict key) then
          match json_to_dict key with
          | JObject members => Ok (with_token self (Some (TokenDict members)))
          | _ => Ok self
          end
        (* Case: path to token *)
        else
          bind (is_file (parse key)) (fun found =>
            if found then Ok (with_token self (Some (TokenStr key)))
            else Raise (ValueError "Invalid auth token value"))
    end.

(** [GcsAccessConfig(service_account_key=key, token=tok)]: pydantic takes
    both fields as arguments ([token] defaults to [None]), then runs
    [model_post_init]; an exception there aborts the construction. *)
Definition new (key : option string) (tok : option Token)
  : Result GcsAccessConfig :=
  match model_post_init (mkGcsAccessConfig key tok) with
  | Ok cfg => Ok cfg
  | Raise e => Raise (validation_error e)
  end.

End PostInit.

(** *** The classes of the module, as declared

    A class is recorded by its name, its bases and the attributes that
    its body declares (annotation and default). *)

Inductive Default : Type :=
| NoDefault
| StrConst (s : string)
| NoneConst
| Factory (what : string).

Record AttrDecl : Type :=
  mkAttr { attr_name : string; annotation : string; default : Default }.

Record ClassDecl : Type :=
  mkClass { name : string; bases : list string; attrs : list AttrDecl }.

Definition GcsIndexerConfig : ClassDecl :=
  mkClass "GcsIndexerConfig" ["FsspecIndexerConfig"] [].

Definition GcsAccessConfig_cls : ClassDecl :=
  mkClass "GcsAccessConfig" ["FsspecAccessConfig"]
    [ mkAttr "service_account_key" "Optional[str]" NoneConst;
      mkAttr "token" "Union[str, dict, None]" NoneConst ].

Definition GcsConnectionConfig : ClassDecl :=
  mkClass "GcsConnectionConfig" ["FsspecConnectionConfig"]
    [ mkAttr "supported_protocols" "list[str]" (Factory "['gs', 'gcs']");
      mkAttr "access_config" "SecretGcsAccessConfig"
        (Factory "SecretGcsAccessConfig(secret_value=GcsAccessConfig())");
      mkAttr "connector_type" "str" (StrConst CONNECTOR_TYPE) ].

Definition GcsIndexer : ClassDecl :=
  mkClass "GcsIndexer" ["FsspecIndexer"]
    [ mkAttr "connection_config" "GcsConnectionConfig" NoDefault;
      mkAttr "index_config" "GcsIndexerConfig" NoDefault;
      mkAttr "connector_type" "str" (StrConst CONNECTOR_TYPE) ].

Definition GcsDownloaderConfig : ClassDecl :=
  mkClass "GcsDownloaderConfig" ["FsspecDownloaderConfig"] [].

Definition GcsDownloader : ClassDecl :=
  mkClass "GcsDownloader" ["FsspecDownloader"]
    [ mkAttr "protocol" "str" (StrConst "gcs");
      mkAttr "connection_config" "GcsConnectionConfig" NoDefault;
      mkAttr "connector_type" "str" (StrConst CONNECTOR_TYPE);
      mkAttr "download_config" "Optional[GcsDownloaderConfig]"
        (Factory "GcsDownloaderConfig") ].

Definition GcsUploaderConfig : ClassDecl :=
  mkClass "GcsUploaderConfig" ["FsspecUploaderConfig"] [].

Definition GcsUploader : ClassDecl :=
  mkClass "GcsUploader" ["FsspecUploader"]
    [ mkAttr "connector_type" "str" (StrConst CONNECTOR_TYPE);
      mkAttr "connection_config" "GcsConnectionConfig" NoDefault;
      mkAttr "upload_config" "GcsUploaderConfig" NoneConst ].

(** Modelled from the spec: [SourceRegistryEntry] and
    [DestinationRegistryEntry] are declared in
    [v2/processes/connector_registry.py], which is not among the sources;
    an entry associates the classes and configuration classes of one
    connector, under the keywords used in this module. *)
Record SourceRegistryEntry : Type :=
  mkSourceEntry {
    indexer : ClassDecl;
    indexer_config : ClassDecl;
    downloader : ClassDecl;
    downloader_config : ClassDecl;
    src_connection_config : ClassDecl
  }.

Record DestinationRegistryEntry : Type :=
  mkDestinationEntry {
    uploader : ClassDecl;
    uploader_config : ClassDecl;
    dst_connection_config : ClassDecl
  }.

Definition gcs_source_entry : SourceRegistryEntry :=
  mkSourceEntry GcsIndexer GcsIndexerConfig GcsDownloader GcsDownloaderConfig
    GcsConnectionConfig.

Definition gcs_destination_entry : DestinationRegistryEntry :=
  mkDestinationEntry GcsUploader GcsUploaderConfig GcsConnectionConfig.

(** The attribute [a] as the body of class [c] declares it. *)
Definition own_attr (c : ClassDecl) (a : string) : option AttrDecl :=
  find (fun d => String.eqb (attr_name d) a) (attrs c).

(** The class that [c] annotates its [connection_config] with. *)
Definition connection_config_type (c : ClassDecl) : option string :=
  option_map annotation (own_attr c "connection_config").

(** The string constant that [c] gives its [connector_type]. *)
Definition carried_connector_type (c : ClassDecl) : option string :=
  match own_attr c "connector_type" with
  | Some d =>
      match default d with
      | StrConst s => Some s
      | _ => None
      end
  | None => None
  end.

Definition source_entry_classes (e : SourceRegistryEntry) : list ClassDecl :=
  [indexer e; indexer_config e; downloader e; downloader_config e;
   src_connection_config e].

Definition destination_entry_classes (e : DestinationRegistryEntry)
  : list ClassDecl :=
  [uploader e; uploader_config e; dst_connection_config e].

(** The classes that do the work of a connector, and the connection
    configuration they share. *)
Definition process_classes : list ClassDecl :=
  [indexer gcs_source_entry; downloader gcs_source_entry;
   uploader gcs_destination_entry].

End Gcs.

(** ** Concrete surroundings and inputs, for the examples *)

Module Samples.
Import Py Pathlib FileDataModel.

(** A home directory, and a file system without symbolic links, where
    resolving an absolute path returns it unchanged. *)
Definition env : Downloader.Env :=
  Downloader.mkEnv (parse "/home/user") (fun p => p).

(** The same machine after the home directory has moved. *)
Definition env_moved : Downloader.Env :=
  Downloader.mkEnv (parse "/srv/other") (fun p => p).

Definition gcs_default : Downloader.t :=
  Downloader.mk "gcs" (DownloaderConfig.mk None).

Definition gcs_overridden : Downloader.t :=
  Downloader.mk "gcs" (DownloaderConfig.mk (Some (parse "/data"))).

Definition file_at (rel : option string) (dm dc : option string) : FileData :=
  mkFileData (Some (mkSourceIdentifiers rel)) (mkMetadata dm dc).

Definition file_without_identifiers : FileData :=
  mkFileData None (mkMetadata None None).

(** A fragment of [float]: non-empty strings of decimal digits, read as
    whole seconds.  [float] itself accepts more (signs, fractions,
    exponents, surrounding blanks). *)
Definition digit_value (c : ascii) : option Z :=
  let n := nat_of_ascii c in
  if (48 <=? n)%nat && (n <=? 57)%nat then Some (Z.of_nat (n - 48)) else None.

Fixpoint digits_value (acc : Z) (s : string) : option Z :=
  match s with
  | EmptyString => Some acc
  | String c s' =>
      match digit_value c with
      | Some d => digits_value (10 * acc + d) s'
      | None => None
      end
  end.

Definition float_digits (s : string) : option Z :=
  if truthy_str s then digits_value 0 s else None.

(** A file system reduced to the timestamps of its files:
    path, access time, modification time. *)
Definition SimpleFS : Type := list (Path * (Z * Z)).

Definition path_eqb (p q : Path) : bool :=
  String.eqb (to_string p) (to_string q).

Fixpoint stat (p : Path) (fs : SimpleFS) : option (Z * Z) :=
  match fs with
  | [] => None
  | (q, times) :: fs' => if path_eqb p q then Some times else stat p fs'
  end.

Fixpoint set_times (p : Path) (times : Z * Z) (fs : SimpleFS) : SimpleFS :=
  match fs with
  | [] => []
  | (q, old) :: fs' =>
      if path_eqb p q then (q, times) :: fs' else (q, old) :: set_times p times fs'
  end.

(** [os.utime] on that file system: a missing file is an error. *)
Definition utime (p : Path) (times : Z * Z) (fs : SimpleFS) : Result SimpleFS :=
  match stat p fs with
  | Some _ => Ok (set_times p times fs)
  | None => Raise (OSError "No such file or directory")
  end.

Definition disk : SimpleFS := [(parse "/data/a/b.txt", (0, 0)%Z)].

(** A stand-in for [json_to_dict] on the inputs of the examples: the text
    of the empty object parses to the empty mapping; the others are not
    JSON and come back as they are. *)
Definition json_to_dict (s : string) : Gcs.json :=
  if String.eqb s "{}" then Gcs.JObject [] else Gcs.JString s.

(** A file system whose only regular file is [/tmp/key.json], and which
    refuses names of more than 255 characters. *)
Definition NAME_MAX : nat := 255.

Definition is_file (p : Path) : Result bool :=
  if existsb (fun c => Nat.ltb NAME_MAX (String.length c)) (tail p)
  then Raise (OSError "File name too long")
  else Ok (path_eqb p (parse "/tmp/key.json")).

(** A key of 256 characters. *)
Definition long_key : string :=
  string_of_list_ascii (repeat "a"%char 256).

(** The constructor reports a [ValueError] of the hook as a
    [ValidationError] and lets the other exceptions through. *)
Definition validation_error (e : exn) : exn :=
  match e with
  | ValueError msg => ValidationError msg
  | _ => e
  end.

(** A backend that defines [run] and inherits [run_async]: its [run]
    answers with the descriptor paired with the path it was given as the
    only option. *)
Definition echo_run : Dispatch.RunMethod unit Path :=
  fun self file_data kwargs w =>
    Ok (Dispatch.One (Downloader.mkDownloadResponse file_data kwargs), self, w).

Definition EchoDownloader : Dispatch.Subclass unit Path :=
  Dispatch.mkSubclass (Some echo_run) None.


Definition rooted_type_default : Downloader.t :=
  Downloader.mk "/tmp/ingest" (DownloaderConfig.mk None).

End Samples.

(** ** Vocabulary of the statements *)

Module Vocabulary.
Import Py Pathlib.

(** A path segment that is one component: no separator in it, and neither
    empty nor a single dot. *)
Definition plain_segment (s : string) : Prop :=
  (forall c, In c (list_ascii_of_string s) -> c <> sep) /\
  keep_component s = true.

(** The value of a metadata string that is present and parses as a
    float; [None] when it is absent, empty or does not parse. *)
Definition parsed_timestamp {F : Type} (float : string -> option F)
  (o : option string) : option F :=
  match o with
  | Some s => if truthy_str s then float s else None
  | None => None
  end.

(** The relative path of a descriptor when [get_download_path] can use
    it: the identifiers are there and the path is neither absent nor
    empty. *)
Definition usable_relative_path (fd : FileDataModel.FileData) : option string :=
  match FileDataModel.source_identifiers fd with
  | Some ids =>
      match FileDataModel.relative_path ids with
      | Some rel => if truthy_str rel then Some rel else None
      | None => None
      end
  | None => None
  end.

(** One step of [os.path.normpath] over the components collected so far
    (last one first): a [..] removes the component before it, is dropped
    at the root, and is kept where nothing is left to remove. *)
Definition normstep (rooted : bool) (stack : list string) (c : string)
  : list string :=
  if String.eqb c ".." then
    match stack with
    | top :: below => if String.eqb top ".." then c :: stack else below
    | [] => if rooted then [] else [c]
    end
  else c :: stack.

(** [os.path.normpath] on a parsed path: the path with its [..] components
    collapsed, which is where the path leads on a file system without
    symbolic links. *)
Definition normpath (p : Path) : Path :=
  mkPath (root p) (rev (fold_left (normstep (is_absolute p)) (tail p) [])).

(** [p] does not leave [base]: it lies under [base] once the [..]
    components of both are collapsed. *)
Definition stays_under (p base : Path) : bool :=
  is_relative_to (normpath p) (normpath base).

(** No component of [p] is [..]. *)
Definition no_dotdot (p : Path) : bool :=
  forallb (fun c => negb (String.eqb c "..")) (tail p).

(** The four fixed components of the default download directory. *)
Definition cache_components : list string :=
  [".cache"; "unstructured"; "ingest"; "download"].

End Vocabulary.

(** * Properties *)

(** ** Paths *)

Module PathlibFacts.
Import Py Pathlib.

Example parse_abs : parse "/etc/passwd" = mkPath "/" ["etc"; "passwd"].
Proof. reflexivity. Qed.

Example parse_two_slashes : parse "//etc/passwd" = mkPath "//" ["etc"; "passwd"].
Proof. reflexivity. Qed.

Example parse_three_slashes : parse "///etc" = mkPath "/" ["etc"].
Proof. reflexivity. Qed.

Example parse_messy : parse "a//b/./c/" = mkPath EmptyString ["a"; "b"; "c"].
Proof. reflexivity. Qed.

Example parse_empty : parse EmptyString = mkPath EmptyString [].
Proof. reflexivity. Qed.

Example parse_dotdot : parse "../x" = mkPath EmptyString [".."; "x"].
Proof. reflexivity. Qed.

Example join_rel : parse "/data" // parse "a/b" = parse "/data/a/b".
Proof. reflexivity. Qed.

Example join_abs : parse "/data" // parse "/etc/passwd" = parse "/etc/passwd".
Proof. reflexivity. Qed.

Example str_of_parse : to_string (parse "/data//a/./b") = "/data/a/b".
Proof. reflexivity. Qed.

Lemma is_prefix_app (l m : list string) : is_prefix l (l ++ m) = true.
Proof.
  induction l as [|x l IH]; simpl.
  - reflexivity.
  - now rewrite String.eqb_refl, IH.
Qed.

Lemma is_prefix_refl (l : list string) : is_prefix l l = true.
Proof.
  rewrite <- (app_nil_r l) at 2. apply is_prefix_app.
Qed.

Lemma is_relative_to_refl (p : Path) : is_relative_to p p = true.
Proof.
  unfold is_relative_to. now rewrite String.eqb_refl, is_prefix_refl.
Qed.

(** A string that does not start with the separator parses to a relative
    path. *)
Lemma parse_relative (s : string) :
  startswith_sep s = false -> is_absolute (parse s) = false.
Proof.
  intros H. unfold parse, splitroot. now rewrite H.
Qed.

(** A string that starts with the separator parses to an absolute path. *)
Lemma parse_absolute (s : string) :
  startswith_sep s = true -> is_absolute (parse s) = true.
Proof.
  intros H. unfold parse, splitroot. rewrite H.
  now destruct (Nat.eqb _ 2).
Qed.

(** Joining a relative path stays under the left operand. *)
Lemma joinpath_relative_under (a b : Path) :
  is_absolute b = false -> is_relative_to (a // b) a = true.
Proof.
  intros H. unfold joinpath, is_relative_to. rewrite H. simpl.
  now rewrite String.eqb_refl, is_prefix_app.
Qed.

(** Joining an absolute path discards the left operand. *)
Lemma joinpath_absolute (a b : Path) :
  is_absolute b = true -> a // b = b.
Proof.
  intros H. unfold joinpath. now rewrite H.
Qed.

(** A segment without separator, neither empty nor a single dot, is one
    component. *)
Lemma split_sep_plain (s : string) :
  (forall c, In c (list_ascii_of_string s) -> c <> sep) ->
  split_sep s = [s].
Proof.
  induction s as [|c s IH]; intros H; simpl.
  - reflexivity.
  - destruct (Ascii.eqb_spec c sep) as [E|_].
    + exfalso. apply (H c); simpl; auto.
    + rewrite IH; [reflexivity|]. intros c' Hc'. apply H. simpl; auto.
Qed.

Lemma parse_plain (s : string) :
  (forall c, In c (list_ascii_of_string s) -> c <> sep) ->
  keep_component s = true ->
  parse s = mkPath EmptyString [s].
Proof.
  intros Hsep Hkeep. unfold parse, splitroot.
  assert (Hs : startswith_sep s = false).
  { destruct s as [|c s]; [reflexivity|]. simpl.
    destruct (Ascii.eqb_spec c sep) as [E|_]; [|reflexivity].
    exfalso. apply (Hsep c); simpl; auto. }
  rewrite Hs, split_sep_plain by assumption. simpl. now rewrite Hkeep.
Qed.

Lemma joinstr_plain (a : Path) (s : string) :
  (forall c, In c (list_ascii_of_string s) -> c <> sep) ->
  keep_component s = true ->
  joinstr a s = mkPath (root a) (tail a ++ [s]).
Proof.
  intros Hsep Hkeep. unfold joinstr. now rewrite parse_plain.
Qed.


Import Vocabulary.

Example normpath_dotdot :
  normpath (parse "/data/../../etc/passwd") = parse "/etc/passwd".
Proof. reflexivity. Qed.

Example normpath_inside :
  normpath (parse "/data/a/../b") = parse "/data/b".
Proof. reflexivity. Qed.

(** Components without [..] are all kept. *)
Lemma fold_normstep_no_dotdot (rooted : bool) (comps stack : list string) :
  forallb (fun c => negb (String.eqb c "..")) comps = true ->
  fold_left (normstep rooted) comps stack = rev comps ++ stack.
Proof.
  revert stack. induction comps as [|c comps IH]; intros stack H; simpl.
  - reflexivity.
  - simpl in H. apply andb_true_iff in H as [Hc Hrest].
    rewrite (IH _ Hrest). unfold normstep.
    apply negb_true_iff in Hc. rewrite Hc.
    now rewrite <- app_assoc.
Qed.

(** Joining a relative path without [..] neither leaves the left operand
    lexically nor once [..] components are collapsed. *)
Lemma joinpath_stays_under (a b : Path) :
  is_absolute b = false ->
  no_dotdot b = true ->
  stays_under (a // b) a = true.
Proof.
  intros Hrel Hdots. unfold joinpath. rewrite Hrel.
  unfold stays_under, normpath, is_relative_to, is_absolute. simpl.
  rewrite String.eqb_refl, fold_left_app. simpl.
  rewrite (fold_normstep_no_dotdot _ (tail b) _ Hdots).
  rewrite rev_app_distr, rev_involutive.
  apply is_prefix_app.
Qed.

End PathlibFacts.

(** ** Download paths *)

Module DownloaderFacts.
Import Py Pathlib FileDataModel Downloader PathlibFacts Vocabulary.

Lemma strip_leading_sep_cons (rest : string) :
  strip_leading_sep (String sep rest) = rest.
Proof. reflexivity. Qed.

(** Once the directory is set, the property returns it and assigns
    nothing. *)
Lemma download_dir_set env self d :
  DownloaderConfig.download_dir (download_config self) = Some d ->
  download_dir env self = (d, self).
Proof.
  intros H. unfold download_dir. now rewrite H.
Qed.

(** After the property has been read the directory is set, to the value
    that was returned. *)
Lemma download_dir_memoizes env self :
  DownloaderConfig.download_dir (download_config (snd (download_dir env self)))
  = Some (fst (download_dir env self)).
Proof.
  unfold download_dir.
  destruct (DownloaderConfig.download_dir (download_config self)) eqn:E; simpl.
  - exact E.
  - reflexivity.
Qed.

(** With a usable relative path the result is the join. *)
Lemma get_download_path_some env self fd ids rel :
  source_identifiers fd = Some ids ->
  relative_path ids = Some rel ->
  rel <> EmptyString ->
  get_download_path env self fd
  = (Some (fst (download_dir env self) // parse (strip_leading_sep rel)),
     snd (download_dir env self)).
Proof.
  intros Hids Hrel Hne. unfold get_download_path. rewrite Hids, Hrel.
  destruct rel as [|c rel]; [contradiction|]. simpl negb. cbv iota.
  now destruct (download_dir env self).
Qed.

Lemma get_download_path_set env self d fd :
  DownloaderConfig.download_dir (download_config self) = Some d ->
  snd (get_download_path env self fd) = self.
Proof.
  intros H. unfold get_download_path.
  destruct (source_identifiers fd) as [ids|]; [|reflexivity].
  destruct (relative_path ids) as [[|c rel]|]; try reflexivity.
  simpl negb. cbv iota. now rewrite (download_dir_set env self d H).
Qed.

Lemma step_set env a self d :
  DownloaderConfig.download_dir (download_config self) = Some d ->
  Lifetime.step env a self = self.
Proof.
  intros H. destruct a as [|fd]; simpl.
  - now rewrite (download_dir_set env self d H).
  - exact (get_download_path_set env self d fd H).
Qed.

Lemma steps_set l self d :
  DownloaderConfig.download_dir (download_config self) = Some d ->
  Lifetime.steps l self = self.
Proof.
  intros H. induction l as [|[env a] l IH]; simpl.
  - reflexivity.
  - now rewrite (step_set env a self d H).
Qed.

(** C1 (as amended).  When the relative path of a file descriptor begins
    with the path separator, [get_download_path] strips exactly that one
    separator and returns the download directory joined with the rest;
    whenever the rest does not begin with a separator itself and has no
    [..] component, the result is rooted under the download directory and
    stays under it once [..] components are collapsed: the relative path
    does not escape the download root. *)
Theorem get_download_path_strips_one_separator env self fd ids rest :
  source_identifiers fd = Some ids ->
  relative_path ids = Some (String sep rest) ->
  fst (get_download_path env self fd)
  = Some (fst (download_dir env self) // parse rest)
  /\ (startswith_sep rest = false ->
      no_dotdot (parse rest) = true ->
      is_relative_to (fst (download_dir env self) // parse rest)
        (fst (download_dir env self)) = true
      /\ stays_under (fst (download_dir env self) // parse rest)
           (fst (download_dir env self)) = true).
Proof.
  intros Hids Hrel. split.
  - rewrite (get_download_path_some env self fd ids _ Hids Hrel) by discriminate.
    reflexivity.
  - intros Hrest Hdots. split.
    + apply joinpath_relative_under. now apply parse_relative.
    + apply joinpath_stays_under; [now apply parse_relative | exact Hdots].
Qed.

Lemma get_download_path_strips_one_separator_witness :
  fst (get_download_path Samples.env Samples.gcs_overridden
         (Samples.file_at (Some "/a/b.txt") None None))
  = Some (parse "/data/a/b.txt")
  /\ is_relative_to (parse "/data/a/b.txt") (parse "/data") = true
  /\ stays_under (parse "/data/a/b.txt") (parse "/data") = true.
Proof.
  pose proof (get_download_path_strips_one_separator Samples.env
                Samples.gcs_overridden
                (Samples.file_at (Some "/a/b.txt") None None)
                (mkSourceIdentifiers (Some "/a/b.txt")) "a/b.txt"
                eq_refl eq_refl) as [H1 H2].
  split; [exact H1 | exact (H2 eq_refl eq_refl)].
Defined.

(** C1 (as stated) fails, in two ways.  A relative path with two leading
    separators still begins with one after the strip, so the join replaces
    the download directory.  A relative path that climbs with [..] is joined
    under the download directory and leads out of it. *)
Lemma get_download_path_leaves_download_dir :
  fst (get_download_path Samples.env Samples.gcs_overridden
         (Samples.file_at (Some "//etc/passwd") None None))
  = Some (parse "/etc/passwd")
  /\ fst (download_dir Samples.env Samples.gcs_overridden) = parse "/data"
  /\ is_relative_to (parse "/etc/passwd") (parse "/data") = false
  /\ fst (get_download_path Samples.env Samples.gcs_overridden
            (Samples.file_at (Some "/../../etc/passwd") None None))
     = Some (mkPath "/" ["data"; ".."; ".."; "etc"; "passwd"])
  /\ normpath (mkPath "/" ["data"; ".."; ".."; "etc"; "passwd"])
     = parse "/etc/passwd"
  /\ stays_under (mkPath "/" ["data"; ".."; ".."; "etc"; "passwd"])
       (parse "/data") = false.
Proof. repeat split. Qed.

(** C4.  [get_download_path] returns [None] exactly when the descriptor has
    no source identifiers, or their relative path is absent or empty; in
    every other case it returns a path. *)
Theorem get_download_path_none_iff env self fd :
  fst (get_download_path env self fd) = None <->
  (source_identifiers fd = None \/
   exists ids, source_identifiers fd = Some ids /\
               (relative_path ids = None \/
                relative_path ids = Some EmptyString)).
Proof.
  unfold get_download_path.
  destruct (source_identifiers fd) as [ids|] eqn:Hids.
  - destruct (relative_path ids) as [[|c rel]|] eqn:Hrel; simpl.
    + split; [|reflexivity]. intros _. right. exists ids. auto.
    + destruct (download_dir env self) as [d self']. simpl. split.
      * discriminate.
      * intros [H|[ids' [H [H'|H']]]]; try discriminate.
        -- injection H as <-. congruence.
        -- injection H as <-. congruence.
    + split; [|reflexivity]. intros _. right. exists ids. auto.
  - simpl. split; auto.
Qed.

Lemma get_download_path_none_iff_witness :
  fst (get_download_path Samples.env Samples.gcs_default
         Samples.file_without_identifiers) = None.
Proof.
  apply (proj2 (get_download_path_none_iff Samples.env Samples.gcs_default
                  Samples.file_without_identifiers)).
  left. reflexivity.
Defined.

(** C5.  Reading [download_dir] memoizes it: after a first read, whatever
    calls follow on the instance and whatever the home directory and the
    file system have become, the instance is unchanged and a further read
    returns the path of the first read. *)
Theorem download_dir_stable env self l env' :
  Lifetime.steps l (snd (download_dir env self)) = snd (download_dir env self)
  /\ download_dir env' (Lifetime.steps l (snd (download_dir env self)))
     = (fst (download_dir env self), snd (download_dir env self)).
Proof.
  pose proof (download_dir_memoizes env self) as Hm.
  rewrite (steps_set l _ _ Hm). split; [reflexivity|].
  exact (download_dir_set env' _ _ Hm).
Qed.

Lemma default_dir_unresolved_plain env self :
  plain_segment (connector_type self) ->
  default_dir_unresolved env self
  = mkPath (root (home env))
      (tail (home env)
       ++ [".cache"; "unstructured"; "ingest"; "download"; connector_type self]).
Proof.
  intros [Hsep Hkeep]. unfold default_dir_unresolved.
  rewrite (joinstr_plain _ (connector_type self) Hsep Hkeep).
  unfold joinstr.
  change (parse ".cache") with (mkPath EmptyString [".cache"]).
  change (parse "unstructured") with (mkPath EmptyString ["unstructured"]).
  change (parse "ingest") with (mkPath EmptyString ["ingest"]).
  change (parse "download") with (mkPath EmptyString ["download"]).
  unfold joinpath. simpl. now rewrite <- !app_assoc.
Qed.

(** C6 (as amended).  When [download_config.download_dir] is [None], the
    download directory is the resolved
    [Path.home() / ".cache" / "unstructured" / "ingest" / "download" /
    connector_type]; for a connector type that is a single path component
    (no separator in it, neither empty nor a single dot) that is, before
    resolution, the home directory followed by these five components.
    Every download path is that directory joined with the relative path
    less one leading separator; whenever what is left of the relative path
    does not begin with a separator and has no [..] component, the download
    path lands under that directory, also once [..] components are
    collapsed. *)
Theorem default_download_dir_layout env self :
  DownloaderConfig.download_dir (download_config self) = None ->
  fst (download_dir env self) = resolve env (default_dir_unresolved env self)
  /\ (plain_segment (connector_type self) ->
      default_dir_unresolved env self
      = mkPath (root (home env))
          (tail (home env)
           ++ [".cache"; "unstructured"; "ingest"; "download";
               connector_type self]))
  /\ (forall fd ids rel,
        source_identifiers fd = Some ids ->
        relative_path ids = Some rel ->
        rel <> EmptyString ->
        fst (get_download_path env self fd)
        = Some (resolve env (default_dir_unresolved env self)
                // parse (strip_leading_sep rel))
        /\ (startswith_sep (strip_leading_sep rel) = false ->
            no_dotdot (parse (strip_leading_sep rel)) = true ->
            is_relative_to
              (resolve env (default_dir_unresolved env self)
               // parse (strip_leading_sep rel))
              (resolve env (default_dir_unresolved env self)) = true
            /\ stays_under
                 (resolve env (default_dir_unresolved env self)
                  // parse (strip_leading_sep rel))
                 (resolve env (default_dir_unresolved env self)) = true)).
Proof.
  intros Hnone.
  assert (Hdir : fst (download_dir env self)
                 = resolve env (default_dir_unresolved env self)).
  { unfold download_dir. now rewrite Hnone. }
  split; [exact Hdir|]. split; [apply default_dir_unresolved_plain|].
  intros fd ids rel Hids Hrel Hne. split.
  - rewrite (get_download_path_some env self fd ids rel Hids Hrel Hne).
    simpl. now rewrite Hdir.
  - intros Hrest Hdots. split.
    + apply joinpath_relative_under. now apply parse_relative.
    + apply joinpath_stays_under; [now apply parse_relative | exact Hdots].
Qed.

Lemma plain_segment_gcs : plain_segment "gcs".
Proof.
  split; [|reflexivity].
  intros c H. simpl in H.
  destruct H as [<-|[<-|[<-|[]]]]; discriminate.
Qed.

Lemma default_download_dir_layout_witness :
  fst (download_dir Samples.env Samples.gcs_default)
  = parse "/home/user/.cache/unstructured/ingest/download/gcs"
  /\ default_dir_unresolved Samples.env Samples.gcs_default
     = mkPath "/"
         ["home"; "user"; ".cache"; "unstructured"; "ingest"; "download"; "gcs"]
  /\ fst (get_download_path Samples.env Samples.gcs_default
            (Samples.file_at (Some "/a/b.txt") None None))
     = Some (parse "/home/user/.cache/unstructured/ingest/download/gcs/a/b.txt")
  /\ is_relative_to
       (parse "/home/user/.cache/unstructured/ingest/download/gcs/a/b.txt")
       (parse "/home/user/.cache/unstructured/ingest/download/gcs") = true
  /\ stays_under
       (parse "/home/user/.cache/unstructured/ingest/download/gcs/a/b.txt")
       (parse "/home/user/.cache/unstructured/ingest/download/gcs") = true.
Proof.
  pose proof (default_download_dir_layout Samples.env Samples.gcs_default
                eq_refl) as [H1 [H2 H3]].
  pose proof (H2 plain_segment_gcs) as H2'.
  pose proof (H3 (Samples.file_at (Some "/a/b.txt") None None)
                (mkSourceIdentifiers (Some "/a/b.txt")) "/a/b.txt"
                eq_refl eq_refl ltac:(discriminate)) as [H4 H5].
  split; [exact H1|]. split; [exact H2'|].
  split; [exact H4 | exact (H5 eq_refl eq_refl)].
Defined.

(** C6 (as stated) fails, in three ways.  With the default directory too, a
    relative path with two leading separators lands outside of it, and so
    does one that climbs with [..]; and a connector type written like an
    absolute path takes the place of the home-relative directory. *)
Lemma default_download_dir_left_behind :
  DownloaderConfig.download_dir (download_config Samples.gcs_default) = None
  /\ fst (download_dir Samples.env Samples.gcs_default)
     = parse "/home/user/.cache/unstructured/ingest/download/gcs"
  /\ fst (get_download_path Samples.env Samples.gcs_default
            (Samples.file_at (Some "//var/log/syslog") None None))
     = Some (parse "/var/log/syslog")
  /\ is_relative_to (parse "/var/log/syslog")
       (parse "/home/user/.cache/unstructured/ingest/download/gcs") = false
  /\ fst (get_download_path Samples.env Samples.gcs_default
            (Samples.file_at (Some "../azure/x") None None))
     = Some (mkPath "/"
               ["home"; "user"; ".cache"; "unstructured"; "ingest"; "download";
                "gcs"; ".."; "azure"; "x"])
  /\ stays_under
       (mkPath "/"
          ["home"; "user"; ".cache"; "unstructured"; "ingest"; "download";
           "gcs"; ".."; "azure"; "x"])
       (parse "/home/user/.cache/unstructured/ingest/download/gcs") = false
  /\ DownloaderConfig.download_dir
       (download_config Samples.rooted_type_default) = None
  /\ fst (download_dir Samples.env Samples.rooted_type_default)
     = parse "/tmp/ingest"
  /\ is_relative_to (parse "/tmp/ingest") (home Samples.env) = false.
Proof. repeat split. Qed.

(** The directory survives a change of home directory between two reads. *)
Example download_dir_survives_move :
  download_dir Samples.env_moved
    (snd (download_dir Samples.env Samples.gcs_default))
  = (parse "/home/user/.cache/unstructured/ingest/download/gcs",
     snd (download_dir Samples.env Samples.gcs_default)).
Proof. reflexivity. Qed.

End DownloaderFacts.

(** ** Timestamps of downloaded files *)

Module TimestampFacts.
Import Py Pathlib FileDataModel Downloader Vocabulary.

Section Generic.

Variable F : Type.
Variable float : string -> option F.
Variable FS : Type.
Variable utime : Path -> F * F -> FS -> Result FS.

Lemma float_or_raise_parsed (s : string) (x : F) :
  float s = Some x -> float_or_raise float s = Ok x.
Proof.
  intros H. unfold float_or_raise. now rewrite H.
Qed.

(** The guard holds exactly when both strings have a parsed value. *)
Lemma restores_timestamps_true fd :
  restores_timestamps float fd = true <->
  exists dm dc m c,
    date_modified (metadata fd) = Some dm /\
    date_created (metadata fd) = Some dc /\
    truthy_str dm = true /\ truthy_str dc = true /\
    float dm = Some m /\ float dc = Some c.
Proof.
  unfold restores_timestamps, is_float. split.
  - destruct (date_modified (metadata fd)) as [dm|]; [|discriminate].
    destruct (date_created (metadata fd)) as [dc|];
      [|now rewrite andb_false_r].
    destruct (truthy_str dm) eqn:Tm; [|discriminate].
    destruct (float dm) as [m|] eqn:Fm; [|discriminate].
    destruct (truthy_str dc) eqn:Tc; [|discriminate].
    destruct (float dc) as [c|] eqn:Fc; [|discriminate].
    intros _. exists dm, dc, m, c. repeat split; assumption || reflexivity.
  - intros (dm & dc & m & c & -> & -> & -> & -> & -> & ->). reflexivity.
Qed.

Lemma parsed_timestamp_some (o : option string) (x : F) :
  parsed_timestamp float o = Some x <->
  exists s, o = Some s /\ truthy_str s = true /\ float s = Some x.
Proof.
  unfold parsed_timestamp. split.
  - destruct o as [s|]; [|discriminate].
    destruct (truthy_str s) eqn:T; [|discriminate].
    intros H. exists s. auto.
  - intros (s & -> & -> & H). exact H.
Qed.

Lemma restores_timestamps_false fd :
  restores_timestamps float fd = false <->
  (parsed_timestamp float (date_modified (metadata fd)) = None \/
   parsed_timestamp float (date_created (metadata fd)) = None).
Proof.
  unfold restores_timestamps, is_float, parsed_timestamp.
  destruct (date_modified (metadata fd)) as [dm|];
    destruct (date_created (metadata fd)) as [dc|];
    try destruct (truthy_str dm); try destruct (truthy_str dc);
    try destruct (float dm); try destruct (float dc); simpl;
    intuition congruence.
Qed.

(** The restoring branch: one call of [os.utime], access time from
    [date_created], modification time from [date_modified]. *)
Lemma generate_download_response_restores self fd p fs m c :
  parsed_timestamp float (date_modified (metadata fd)) = Some m ->
  parsed_timestamp float (date_created (metadata fd)) = Some c ->
  generate_download_response float utime self fd p fs
  = bind (utime p (c, m) fs)
      (fun fs' => Ok (mkDownloadResponse fd p, fs')).
Proof.
  intros Hm Hc.
  apply parsed_timestamp_some in Hm as (dm & Edm & Tm & Fm).
  apply parsed_timestamp_some in Hc as (dc & Edc & Tc & Fc).
  assert (Hg : restores_timestamps float fd = true).
  { apply restores_timestamps_true. exists dm, dc, m, c.
    repeat split; assumption. }
  unfold generate_download_response. rewrite Hg, Edm, Edc.
  rewrite (float_or_raise_parsed dm m Fm), (float_or_raise_parsed dc c Fc).
  reflexivity.
Qed.

(** The skipping branch: nothing is called. *)
Lemma generate_download_response_skips self fd p fs :
  restores_timestamps float fd = false ->
  generate_download_response float utime self fd p fs
  = Ok (mkDownloadResponse fd p, fs).
Proof.
  intros Hg. unfold generate_download_response. now rewrite Hg.
Qed.

End Generic.

(** C3.  When [date_modified] and [date_created] are both present and parse
    as floats, [generate_download_response] calls [os.utime] on the download
    path with access time the parsed [date_created] and modification time
    the parsed [date_modified], and the file system it leaves is the one
    [os.utime] leaves; when either is absent or does not parse, the file
    system is untouched and the call returns without an error. *)
Theorem generate_download_response_timestamps
  (F : Type) (float : string -> option F)
  (FS : Type) (utime : Path -> F * F -> FS -> Result FS)
  (self : Downloader.t) (fd : FileData) (p : Path) (fs : FS) :
  (forall m c,
      parsed_timestamp float (date_modified (metadata fd)) = Some m ->
      parsed_timestamp float (date_created (metadata fd)) = Some c ->
      generate_download_response float utime self fd p fs
      = bind (utime p (c, m) fs)
          (fun fs' => Ok (mkDownloadResponse fd p, fs')))
  /\ (parsed_timestamp float (date_modified (metadata fd)) = None \/
      parsed_timestamp float (date_created (metadata fd)) = None ->
      generate_download_response float utime self fd p fs
      = Ok (mkDownloadResponse fd p, fs)).
Proof.
  split.
  - intros m c. apply generate_download_response_restores.
  - intros H. apply generate_download_response_skips.
    now apply restores_timestamps_false.
Qed.

Lemma generate_download_response_timestamps_witness :
  generate_download_response Samples.float_digits Samples.utime
    Samples.gcs_overridden
    (Samples.file_at (Some "/a/b.txt") (Some "1700000100") (Some "1700000000"))
    (parse "/data/a/b.txt") Samples.disk
  = Ok (mkDownloadResponse
          (Samples.file_at (Some "/a/b.txt") (Some "1700000100")
             (Some "1700000000"))
          (parse "/data/a/b.txt"),
        [(parse "/data/a/b.txt", (1700000000, 1700000100)%Z)])
  /\ generate_download_response Samples.float_digits Samples.utime
       Samples.gcs_overridden
       (Samples.file_at (Some "/a/b.txt") (Some "yesterday") (Some "1700000000"))
       (parse "/data/a/b.txt") Samples.disk
     = Ok (mkDownloadResponse
             (Samples.file_at (Some "/a/b.txt") (Some "yesterday")
                (Some "1700000000"))
             (parse "/data/a/b.txt"),
           Samples.disk).
Proof.
  split.
  - exact (proj1 (generate_download_response_timestamps Z Samples.float_digits
                    Samples.SimpleFS Samples.utime Samples.gcs_overridden
                    (Samples.file_at (Some "/a/b.txt") (Some "1700000100")
                       (Some "1700000000"))
                    (parse "/data/a/b.txt") Samples.disk)
             1700000100%Z 1700000000%Z eq_refl eq_refl).
  - exact (proj2 (generate_download_response_timestamps Z Samples.float_digits
                    Samples.SimpleFS Samples.utime Samples.gcs_overridden
                    (Samples.file_at (Some "/a/b.txt") (Some "yesterday")
                       (Some "1700000000"))
                    (parse "/data/a/b.txt") Samples.disk)
             (or_introl eq_refl)).
Defined.

(** C10.  [generate_download_response] either returns the response that
    pairs exactly the descriptor and the download path it was given, or
    raises; it raises only in the restoring branch, with the exception of
    [os.utime].  The descriptor is passed on as it came. *)
Theorem generate_download_response_frame
  (F : Type) (float : string -> option F)
  (FS : Type) (utime : Path -> F * F -> FS -> Result FS)
  (self : Downloader.t) (fd : FileData) (p : Path) (fs : FS) :
  match generate_download_response float utime self fd p fs with
  | Ok (r, _) =>
      r = mkDownloadResponse fd p /\ file_data r = fd /\ path r = p
  | Raise e =>
      exists m c,
        parsed_timestamp float (date_modified (metadata fd)) = Some m /\
        parsed_timestamp float (date_created (metadata fd)) = Some c /\
        utime p (c, m) fs = Raise e
  end.
Proof.
  destruct (restores_timestamps float fd) eqn:Hg.
  - apply restores_timestamps_true in Hg
      as (dm & dc & m & c & Edm & Edc & Tm & Tc & Fm & Fc).
    assert (Hm : parsed_timestamp float (date_modified (metadata fd)) = Some m).
    { apply parsed_timestamp_some. exists dm. auto. }
    assert (Hc : parsed_timestamp float (date_created (metadata fd)) = Some c).
    { apply parsed_timestamp_some. exists dc. auto. }
    rewrite (generate_download_response_restores F float FS utime self fd p fs
               m c Hm Hc).
    destruct (utime p (c, m) fs) as [fs'|e] eqn:Hu; simpl.
    + auto.
    + exists m, c. auto.
  - rewrite (generate_download_response_skips F float FS utime self fd p fs Hg).
    auto.
Qed.

(** On a disk where the file is missing, the exception of [os.utime] comes
    out of the restoring branch; the skipping branch does not look. *)
Example generate_download_response_missing_file :
  generate_download_response Samples.float_digits Samples.utime
    Samples.gcs_overridden
    (Samples.file_at (Some "/a/b.txt") (Some "2") (Some "1"))
    (parse "/data/missing") Samples.disk
  = Raise (OSError "No such file or directory")
  /\ generate_download_response Samples.float_digits Samples.utime
       Samples.gcs_overridden
       (Samples.file_at (Some "/a/b.txt") None (Some "1"))
       (parse "/data/missing") Samples.disk
     = Ok (mkDownloadResponse (Samples.file_at (Some "/a/b.txt") None (Some "1"))
             (parse "/data/missing"),
           Samples.disk).
Proof. split; reflexivity. Qed.

End TimestampFacts.

(** ** The default [run_async] *)

Module DispatchFacts.
Import Py Pathlib FileDataModel Dispatch.

(** Creating the coroutine of the default [run_async] and awaiting it in
    world [w] is calling the [run] of the class in [w]. *)
Lemma await_Downloader_run_async (World Kwargs : Type)
  (C : Subclass World Kwargs) self fd kw w :
  await (Downloader_run_async C self fd kw) w = call_run C self fd kw w.
Proof. reflexivity. Qed.

(** C7.  On an instance of a class that does not define [run_async],
    awaiting [run_async(file_data, **kwargs)] yields what
    [run(file_data, **kwargs)] yields at that moment: the same value, the
    same exception, the same effects. *)
Theorem run_async_default_is_run (World Kwargs : Type)
  (C : Subclass World Kwargs) (self : Downloader.t) (fd : FileData)
  (kw : Kwargs) (w : World) :
  run_async C = None ->
  await (call_run_async C self fd kw) w = call_run C self fd kw w.
Proof.
  intros H. unfold call_run_async. rewrite H.
  apply await_Downloader_run_async.
Qed.

Lemma run_async_default_is_run_witness :
  await (call_run_async Samples.EchoDownloader Samples.gcs_overridden
           Samples.file_without_identifiers (parse "/data/x")) tt
  = Ok (One (Downloader.mkDownloadResponse Samples.file_without_identifiers
               (parse "/data/x")),
        Samples.gcs_overridden, tt).
Proof.
  exact (run_async_default_is_run unit Path Samples.EchoDownloader
           Samples.gcs_overridden Samples.file_without_identifiers
           (parse "/data/x") tt eq_refl).
Defined.

End DispatchFacts.

(** ** The GCS connector *)

Module GcsFacts.
Import Py Pathlib Gcs.

Lemma str_in_In (x : string) (l : list string) :
  str_in x l = true <-> In x l.
Proof.
  induction l as [|y l IH]; simpl.
  - split; [discriminate | contradiction].
  - rewrite orb_true_iff, IH. split.
    + intros [H|H]; [left; symmetry; now apply String.eqb_eq | now right].
    + intros [H|H]; [left; apply String.eqb_eq; now symmetry | now right].
Qed.

Lemma str_in_not_In (x : string) (l : list string) :
  ~ In x l -> str_in x l = false.
Proof.
  intros H. destruct (str_in x l) eqn:E; [|reflexivity].
  exfalso. apply H. now apply str_in_In.
Qed.

Lemma named_mode_not_empty (k : string) :
  In k ALLOWED_AUTH_VALUES -> truthy_str k = true.
Proof.
  simpl. intros [<-|[<-|[<-|[<-|[<-|[]]]]]]; reflexivity.
Qed.

Lemma truthy_str_nonempty (k : string) :
  k <> EmptyString -> truthy_str k = true.
Proof.
  destruct k; [contradiction | reflexivity].
Qed.

(** The hook on an instance with a non-empty key: the three tests in
    turn. *)
Lemma model_post_init_nonempty json_to_dict is_file self k :
  service_account_key self = Some k ->
  truthy_str k = true ->
  model_post_init json_to_dict is_file self
  = if str_in k ALLOWED_AUTH_VALUES then
      Ok (with_token self (Some (TokenStr k)))
    else if is_dict (json_to_dict k) then
      match json_to_dict k with
      | JObject members => Ok (with_token self (Some (TokenDict members)))
      | _ => Ok self
      end
    else
      bind (is_file (parse k)) (fun found =>
        if found then Ok (with_token self (Some (TokenStr k)))
        else Raise (ValueError "Invalid auth token value")).
Proof.
  intros Hk Ht. unfold model_post_init. rewrite Hk.
  cbn [truthy_opt_str]. rewrite Ht. reflexivity.
Qed.

(** The hook on an instance with an absent or empty key. *)
Lemma model_post_init_falsy json_to_dict is_file self :
  truthy_opt_str (service_account_key self) = false ->
  model_post_init json_to_dict is_file self = Ok self.
Proof.
  intros H. unfold model_post_init. now rewrite H.
Qed.

Section PostInitFacts.

Variable json_to_dict : string -> json.
Variable is_file : Path -> Result bool.
Variable validation_error : exn -> exn.

Let construct := new json_to_dict is_file validation_error.

Lemma new_falsy (key : option string) (tok : option Token) :
  truthy_opt_str key = false ->
  construct key tok = Ok (mkGcsAccessConfig key tok).
Proof.
  intros H. unfold construct, new.
  now rewrite (model_post_init_falsy json_to_dict is_file
                 (mkGcsAccessConfig key tok) H).
Qed.

(** A non-empty key goes through the three tests in turn; the token that
    was passed is overwritten or the construction fails. *)
Lemma new_nonempty (k : string) (tok : option Token) :
  truthy_str k = true ->
  construct (Some k) tok
  = if str_in k ALLOWED_AUTH_VALUES then
      Ok (mkGcsAccessConfig (Some k) (Some (TokenStr k)))
    else if is_dict (json_to_dict k) then
      match json_to_dict k with
      | JObject members =>
          Ok (mkGcsAccessConfig (Some k) (Some (TokenDict members)))
      | _ => Ok (mkGcsAccessConfig (Some k) tok)
      end
    else
      match is_file (parse k) with
      | Ok true => Ok (mkGcsAccessConfig (Some k) (Some (TokenStr k)))
      | Ok false =>
          Raise (validation_error (ValueError "Invalid auth token value"))
      | Raise e => Raise (validation_error e)
      end.
Proof.
  intros H. unfold construct, new.
  rewrite (model_post_init_nonempty json_to_dict is_file
             (mkGcsAccessConfig (Some k) tok) k eq_refl H).
  unfold with_token. cbn [service_account_key token].
  destruct (str_in k ALLOWED_AUTH_VALUES); [reflexivity|].
  destruct (is_dict (json_to_dict k)).
  - now destruct (json_to_dict k).
  - now destruct (is_file (parse k)) as [[|]|e].
Qed.

Lemma new_named_mode (k : string) (tok : option Token) :
  In k ALLOWED_AUTH_VALUES ->
  construct (Some k) tok
  = Ok (mkGcsAccessConfig (Some k) (Some (TokenStr k))).
Proof.
  intros H. rewrite (new_nonempty k tok (named_mode_not_empty k H)).
  now rewrite (proj2 (str_in_In k ALLOWED_AUTH_VALUES) H).
Qed.

Lemma new_json_object (k : string) (tok : option Token)
  (members : list (string * json)) :
  k <> EmptyString -> ~ In k ALLOWED_AUTH_VALUES ->
  json_to_dict k = JObject members ->
  construct (Some k) tok
  = Ok (mkGcsAccessConfig (Some k) (Some (TokenDict members))).
Proof.
  intros Hne Hmode Hjson.
  rewrite (new_nonempty k tok (truthy_str_nonempty k Hne)).
  rewrite (str_in_not_In k _ Hmode), Hjson. reflexivity.
Qed.

Lemma new_token_file (k : string) (tok : option Token) :
  k <> EmptyString -> ~ In k ALLOWED_AUTH_VALUES ->
  is_dict (json_to_dict k) = false ->
  is_file (parse k) = Ok true ->
  construct (Some k) tok
  = Ok (mkGcsAccessConfig (Some k) (Some (TokenStr k))).
Proof.
  intros Hne Hmode Hjson Hfile.
  rewrite (new_nonempty k tok (truthy_str_nonempty k Hne)).
  rewrite (str_in_not_In k _ Hmode), Hjson, Hfile. reflexivity.
Qed.

Lemma new_invalid (k : string) (tok : option Token) :
  k <> EmptyString -> ~ In k ALLOWED_AUTH_VALUES ->
  is_dict (json_to_dict k) = false ->
  is_file (parse k) <> Ok true ->
  exists e, construct (Some k) tok = Raise e.
Proof.
  intros Hne Hmode Hjson Hfile.
  rewrite (new_nonempty k tok (truthy_str_nonempty k Hne)).
  rewrite (str_in_not_In k _ Hmode), Hjson.
  destruct (is_file (parse k)) as [[|]|e].
  - contradiction.
  - eexists. reflexivity.
  - eexists. reflexivity.
Qed.

End PostInitFacts.

(** C2 (as amended).  Construction of [GcsAccessConfig] resolves [token]
    from [service_account_key] by the first case that applies: [None] or
    the empty string leave [token] at [None]; one of the five named modes
    sets it to that string; otherwise a string that parses to a JSON object
    sets it to the parsed mapping; otherwise the path of an existing file
    sets it to that string; any other non-empty string makes the
    construction itself raise, in [model_post_init]. *)
Theorem gcs_token_resolution
  (json_to_dict : string -> json) (is_file : Path -> Result bool)
  (validation_error : exn -> exn) (key : option string) :
  match key with
  | None =>
      new json_to_dict is_file validation_error None None
      = Ok (mkGcsAccessConfig None None)
  | Some k =>
      (k = EmptyString ->
       new json_to_dict is_file validation_error (Some k) None
       = Ok (mkGcsAccessConfig (Some k) None))
      /\ (In k ALLOWED_AUTH_VALUES ->
          new json_to_dict is_file validation_error (Some k) None
          = Ok (mkGcsAccessConfig (Some k) (Some (TokenStr k))))
      /\ (k <> EmptyString -> ~ In k ALLOWED_AUTH_VALUES ->
          forall members, json_to_dict k = JObject members ->
          new json_to_dict is_file validation_error (Some k) None
          = Ok (mkGcsAccessConfig (Some k) (Some (TokenDict members))))
      /\ (k <> EmptyString -> ~ In k ALLOWED_AUTH_VALUES ->
          is_dict (json_to_dict k) = false ->
          is_file (parse k) = Ok true ->
          new json_to_dict is_file validation_error (Some k) None
          = Ok (mkGcsAccessConfig (Some k) (Some (TokenStr k))))
      /\ (k <> EmptyString -> ~ In k ALLOWED_AUTH_VALUES ->
          is_dict (json_to_dict k) = false ->
          is_file (parse k) <> Ok true ->
          exists e,
            new json_to_dict is_file validation_error (Some k) None = Raise e)
  end.
Proof.
  destruct key as [k|]; [|reflexivity].
  split; [intros ->; reflexivity|].
  split; [apply new_named_mode|].
  split; [intros Hne Hmode members; now apply new_json_object|].
  split; [apply new_token_file | apply new_invalid].
Qed.

Lemma not_named_mode_key_file : ~ In "/tmp/key.json" ALLOWED_AUTH_VALUES.
Proof.
  simpl. intros [H|[H|[H|[H|[H|[]]]]]]; discriminate.
Qed.

Lemma not_named_mode_braces : ~ In "{}" ALLOWED_AUTH_VALUES.
Proof.
  simpl. intros [H|[H|[H|[H|[H|[]]]]]]; discriminate.
Qed.

Lemma not_named_mode_garbage : ~ In "no such thing" ALLOWED_AUTH_VALUES.
Proof.
  simpl. intros [H|[H|[H|[H|[H|[]]]]]]; discriminate.
Qed.

Lemma gcs_token_resolution_witness :
  new Samples.json_to_dict Samples.is_file Samples.validation_error
    (Some "anon") None
  = Ok (mkGcsAccessConfig (Some "anon") (Some (TokenStr "anon")))
  /\ new Samples.json_to_dict Samples.is_file Samples.validation_error
       (Some "{}") None
     = Ok (mkGcsAccessConfig (Some "{}") (Some (TokenDict [])))
  /\ new Samples.json_to_dict Samples.is_file Samples.validation_error
       (Some "/tmp/key.json") None
     = Ok (mkGcsAccessConfig (Some "/tmp/key.json")
             (Some (TokenStr "/tmp/key.json")))
  /\ exists e,
       new Samples.json_to_dict Samples.is_file Samples.validation_error
         (Some "no such thing") None
       = Raise e.
Proof.
  split; [|split; [|split]].
  - apply (proj1 (proj2 (gcs_token_resolution Samples.json_to_dict
                           Samples.is_file Samples.validation_error
                           (Some "anon")))).
    simpl. auto.
  - apply (proj1 (proj2 (proj2 (gcs_token_resolution Samples.json_to_dict
                                  Samples.is_file Samples.validation_error
                                  (Some "{}"))))).
    + discriminate.
    + exact not_named_mode_braces.
    + reflexivity.
  - apply (proj1 (proj2 (proj2 (proj2
             (gcs_token_resolution Samples.json_to_dict Samples.is_file
                Samples.validation_error (Some "/tmp/key.json")))))).
    + discriminate.
    + exact not_named_mode_key_file.
    + reflexivity.
    + reflexivity.
  - apply (proj2 (proj2 (proj2 (proj2
             (gcs_token_resolution Samples.json_to_dict Samples.is_file
                Samples.validation_error (Some "no such thing")))))).
    + discriminate.
    + exact not_named_mode_garbage.
    + reflexivity.
    + discriminate.
Defined.

(** C2 (as stated) fails: the empty string is none of the four accepted
    forms, and yet the construction does not raise. *)
Lemma gcs_empty_key_is_accepted :
  Some EmptyString <> (None : option string)
  /\ str_in EmptyString ALLOWED_AUTH_VALUES = false
  /\ is_dict (Samples.json_to_dict EmptyString) = false
  /\ Samples.is_file (parse EmptyString) = Ok false
  /\ new Samples.json_to_dict Samples.is_file Samples.validation_error
       (Some EmptyString) None
     = Ok (mkGcsAccessConfig (Some EmptyString) None).
Proof.
  split; [discriminate|]. repeat split.
Qed.

(** C9.  With the empty string for [service_account_key] the construction
    returns with [token] at [None], as it does for [None], whatever the
    JSON helper and the file system would have said: the falsy test comes
    first.  The empty string is not [None] and not a named mode. *)
Theorem gcs_empty_key_like_none
  (json_to_dict : string -> json) (is_file : Path -> Result bool)
  (validation_error : exn -> exn) :
  new json_to_dict is_file validation_error (Some EmptyString) None
  = Ok (mkGcsAccessConfig (Some EmptyString) None)
  /\ new json_to_dict is_file validation_error None None
     = Ok (mkGcsAccessConfig None None)
  /\ Some EmptyString <> (None : option string)
  /\ str_in EmptyString ALLOWED_AUTH_VALUES = false.
Proof.
  split; [reflexivity|]. split; [reflexivity|]. split; [discriminate|].
  reflexivity.
Qed.

(** The falsy test wins even over a helper that would parse the empty
    string and a file system that would find it. *)
Example gcs_empty_key_short_circuits :
  new (fun _ => JObject []) (fun _ => Ok true) Samples.validation_error
    (Some EmptyString) None
  = Ok (mkGcsAccessConfig (Some EmptyString) None).
Proof. reflexivity. Qed.

(** A string that both parses to a JSON object and names an existing file
    resolves to the mapping: the JSON case comes first. *)
Example gcs_json_before_file :
  new Samples.json_to_dict (fun _ => Ok true) Samples.validation_error
    (Some "{}") None
  = Ok (mkGcsAccessConfig (Some "{}") (Some (TokenDict []))).
Proof. reflexivity. Qed.

(** A key too long for a file name: the error of the file system comes out
    of the construction, not the [ValueError] of the last line. *)
Example gcs_long_key_oserror :
  new Samples.json_to_dict Samples.is_file Samples.validation_error
    (Some Samples.long_key) None
  = Raise (OSError "File name too long").
Proof. vm_compute. reflexivity. Qed.

(** C8 (as amended).  In the two registry entries of the connector, the
    indexer, the downloader and the uploader annotate [connection_config]
    with the connection configuration class of their entry, which is
    [GcsConnectionConfig] in both; these three classes and the connection
    configuration class carry the connector type ["gcs"]; the indexer,
    downloader and uploader configuration classes declare no connector
    type. *)
Theorem gcs_entries_consistent :
  connection_config_type (indexer gcs_source_entry)
  = Some (name (src_connection_config gcs_source_entry))
  /\ connection_config_type (downloader gcs_source_entry)
     = Some (name (src_connection_config gcs_source_entry))
  /\ connection_config_type (uploader gcs_destination_entry)
     = Some (name (dst_connection_config gcs_destination_entry))
  /\ src_connection_config gcs_source_entry = GcsConnectionConfig
  /\ dst_connection_config gcs_destination_entry = GcsConnectionConfig
  /\ (forall c,
        In c (process_classes
              ++ [src_connection_config gcs_source_entry;
                  dst_connection_config gcs_destination_entry]) ->
        carried_connector_type c = Some "gcs")
  /\ (forall c,
        In c [indexer_config gcs_source_entry;
              downloader_config gcs_source_entry;
              uploader_config gcs_destination_entry] ->
        carried_connector_type c = None).
Proof.
  repeat (split; [reflexivity|]). split.
  - intros c H. simpl in H.
    destruct H as [<-|[<-|[<-|[<-|[<-|[]]]]]]; reflexivity.
  - intros c H. simpl in H.
    destruct H as [<-|[<-|[<-|[]]]]; reflexivity.
Qed.

Lemma gcs_entries_consistent_witness :
  carried_connector_type GcsDownloader = Some "gcs"
  /\ carried_connector_type GcsUploaderConfig = None.
Proof.
  pose proof gcs_entries_consistent as (_ & _ & _ & _ & _ & H1 & H2).
  split.
  - apply H1. simpl. auto.
  - apply H2. simpl. auto.
Defined.

(** C8 (as stated) fails: the entries also hold the three configuration
    classes, whose bodies are empty. *)
Lemma gcs_entry_class_without_connector_type :
  ~ (forall c,
        In c (source_entry_classes gcs_source_entry
              ++ destination_entry_classes gcs_destination_entry) ->
        carried_connector_type c = Some "gcs").
Proof.
  intros H.
  assert (E : carried_connector_type GcsIndexerConfig = Some "gcs").
  { apply H. simpl. auto. }
  discriminate E.
Qed.

End GcsFacts.

(** ** More on download paths *)

Module DownloaderMore.
Import Py Pathlib FileDataModel Downloader PathlibFacts Vocabulary
  DownloaderFacts.

(** The two outcomes of [get_download_path], by the descriptor alone. *)
Lemma get_download_path_by_cases env self fd :
  get_download_path env self fd
  = match usable_relative_path fd with
    | None => (None, self)
    | Some rel =>
        (Some (fst (download_dir env self) // parse (strip_leading_sep rel)),
         snd (download_dir env self))
    end.
Proof.
  unfold get_download_path, usable_relative_path.
  destruct (source_identifiers fd) as [ids|]; [|reflexivity].
  destruct (relative_path ids) as [[|c rel]|]; try reflexivity.
  simpl negb. cbv iota. simpl truthy_str. cbv iota.
  now destruct (download_dir env self).
Qed.

Lemma usable_relative_path_some fd ids rel :
  source_identifiers fd = Some ids ->
  relative_path ids = Some rel ->
  rel <> EmptyString ->
  usable_relative_path fd = Some rel.
Proof.
  intros Hids Hrel Hne. unfold usable_relative_path. rewrite Hids, Hrel.
  destruct rel; [contradiction | reflexivity].
Qed.

Lemma strip_leading_sep_relative (rel : string) :
  startswith_sep rel = false -> strip_leading_sep rel = rel.
Proof.
  intros H. unfold strip_leading_sep. now rewrite H.
Qed.

Lemma joinpath_relative (a b : Path) :
  is_absolute b = false -> a // b = mkPath (root a) (tail a ++ tail b).
Proof.
  intros H. unfold joinpath. now rewrite H.
Qed.

Lemma joinpath_empty (a : Path) : a // mkPath EmptyString [] = a.
Proof.
  destruct a as [r t]. unfold joinpath. simpl. now rewrite app_nil_r.
Qed.

(** The directory that holds the default one of every connector. *)
Lemma cache_root env :
  joinstr (joinstr (joinstr (joinstr (home env) ".cache") "unstructured")
             "ingest") "download"
  = mkPath (root (home env)) (tail (home env) ++ cache_components).
Proof.
  unfold joinstr.
  change (parse ".cache") with (mkPath EmptyString [".cache"]).
  change (parse "unstructured") with (mkPath EmptyString ["unstructured"]).
  change (parse "ingest") with (mkPath EmptyString ["ingest"]).
  change (parse "download") with (mkPath EmptyString ["download"]).
  unfold joinpath, cache_components. simpl. now rewrite <- !app_assoc.
Qed.

Lemma default_dir_unresolved_cache_root env self :
  default_dir_unresolved env self
  = joinstr (mkPath (root (home env)) (tail (home env) ++ cache_components))
      (connector_type self).
Proof.
  unfold default_dir_unresolved. now rewrite cache_root.
Qed.

(** X1.  A relative path that does not begin with the separator is used as
    it is: the download path has the components of the download directory
    followed by those of the relative path.  If the relative path has no
    [..] component, the download path stays under the download directory
    once [..] components are collapsed. *)
Theorem get_download_path_relative_kept env self fd ids rel :
  source_identifiers fd = Some ids ->
  relative_path ids = Some rel ->
  rel <> EmptyString ->
  startswith_sep rel = false ->
  fst (get_download_path env self fd)
  = Some (mkPath (root (fst (download_dir env self)))
            (tail (fst (download_dir env self)) ++ tail (parse rel)))
  /\ (no_dotdot (parse rel) = true ->
      stays_under
        (mkPath (root (fst (download_dir env self)))
           (tail (fst (download_dir env self)) ++ tail (parse rel)))
        (fst (download_dir env self)) = true).
Proof.
  intros Hids Hrel Hne Hsep.
  rewrite get_download_path_by_cases,
    (usable_relative_path_some fd ids rel Hids Hrel Hne),
    (strip_leading_sep_relative rel Hsep),
    (joinpath_relative _ _ (parse_relative rel Hsep)).
  split; [reflexivity|].
  intros Hdots.
  rewrite <- (joinpath_relative _ _ (parse_relative rel Hsep)).
  apply joinpath_stays_under; [now apply parse_relative | exact Hdots].
Qed.

Lemma get_download_path_relative_kept_witness :
  fst (get_download_path Samples.env Samples.gcs_overridden
         (Samples.file_at (Some "a/b.txt") None None))
  = Some (parse "/data/a/b.txt")
  /\ stays_under (parse "/data/a/b.txt") (parse "/data") = true.
Proof.
  pose proof (get_download_path_relative_kept Samples.env
                Samples.gcs_overridden
                (Samples.file_at (Some "a/b.txt") None None)
                (mkSourceIdentifiers (Some "a/b.txt")) "a/b.txt"
                eq_refl eq_refl ltac:(discriminate) eq_refl) as [H1 H2].
  split; [exact H1 | exact (H2 eq_refl)].
Defined.

(** With a [..] component the same join leads out of the download
    directory. *)
Example get_download_path_relative_climbs :
  fst (get_download_path Samples.env Samples.gcs_overridden
         (Samples.file_at (Some "../x") None None))
  = Some (mkPath "/" ["data"; ".."; "x"])
  /\ stays_under (mkPath "/" ["data"; ".."; "x"]) (parse "/data") = false.
Proof. split; reflexivity. Qed.

(** X2.  Two descriptors whose relative paths differ only by one leading
    separator get the same download path. *)
Theorem get_download_path_leading_separator_collides
  env self fd1 fd2 ids1 ids2 rel :
  source_identifiers fd1 = Some ids1 ->
  relative_path ids1 = Some rel ->
  source_identifiers fd2 = Some ids2 ->
  relative_path ids2 = Some (String sep rel) ->
  rel <> EmptyString ->
  startswith_sep rel = false ->
  fst (get_download_path env self fd1) = fst (get_download_path env self fd2).
Proof.
  intros H1 R1 H2 R2 Hne Hsep.
  rewrite !get_download_path_by_cases,
    (usable_relative_path_some fd1 ids1 rel H1 R1 Hne),
    (usable_relative_path_some fd2 ids2 _ H2 R2) by discriminate.
  simpl fst. now rewrite (strip_leading_sep_relative rel Hsep).
Qed.

Lemma get_download_path_leading_separator_collides_witness :
  fst (get_download_path Samples.env Samples.gcs_default
         (Samples.file_at (Some "a/b.txt") None None))
  = fst (get_download_path Samples.env Samples.gcs_default
           (Samples.file_at (Some "/a/b.txt") None None)).
Proof.
  exact (get_download_path_leading_separator_collides Samples.env
           Samples.gcs_default
           (Samples.file_at (Some "a/b.txt") None None)
           (Samples.file_at (Some "/a/b.txt") None None)
           (mkSourceIdentifiers (Some "a/b.txt"))
           (mkSourceIdentifiers (Some "/a/b.txt")) "a/b.txt"
           eq_refl eq_refl eq_refl eq_refl ltac:(discriminate) eq_refl).
Defined.

(** X3.  A relative path that begins with two separators yields the
    absolute path that is left after the strip, whatever the download
    directory is. *)
Theorem get_download_path_double_separator env self fd ids rest :
  source_identifiers fd = Some ids ->
  relative_path ids = Some (String sep (String sep rest)) ->
  fst (get_download_path env self fd) = Some (parse (String sep rest))
  /\ is_absolute (parse (String sep rest)) = true.
Proof.
  intros Hids Hrel.
  assert (Habs : is_absolute (parse (String sep rest)) = true)
    by now apply parse_absolute.
  split; [|exact Habs].
  rewrite get_download_path_by_cases,
    (usable_relative_path_some fd ids _ Hids Hrel) by discriminate.
  simpl fst. rewrite strip_leading_sep_cons.
  now rewrite (joinpath_absolute _ _ Habs).
Qed.

Lemma get_download_path_double_separator_witness :
  fst (get_download_path Samples.env Samples.gcs_default
         (Samples.file_at (Some "//srv/x") None None))
  = Some (parse "/srv/x")
  /\ is_absolute (parse "/srv/x") = true.
Proof.
  exact (get_download_path_double_separator Samples.env Samples.gcs_default
           (Samples.file_at (Some "//srv/x") None None)
           (mkSourceIdentifiers (Some "//srv/x")) "srv/x" eq_refl eq_refl).
Defined.

(** X4.  [get_download_path] touches the instance only when it returns a
    path: with [None] the instance is as before, the download directory not
    resolved; with a path, the configuration holds the download directory
    from then on.  The connector type is never assigned. *)
Theorem get_download_path_effect env self fd :
  match fst (get_download_path env self fd) with
  | None => snd (get_download_path env self fd) = self
  | Some _ =>
      DownloaderConfig.download_dir
        (download_config (snd (get_download_path env self fd)))
      = Some (fst (download_dir env self))
  end
  /\ connector_type (snd (get_download_path env self fd)) = connector_type self.
Proof.
  rewrite get_download_path_by_cases.
  destruct (usable_relative_path fd) as [rel|]; simpl.
  - split; [apply download_dir_memoizes|].
    unfold download_dir.
    now destruct (DownloaderConfig.download_dir (download_config self)).
  - split; reflexivity.
Qed.

(** X5.  A download directory set by the user is returned as it is, not
    resolved; the home directory and the file system play no part in the
    download paths, and the instance is left as it is. *)
Theorem download_dir_override_respected env env' self d fd :
  DownloaderConfig.download_dir (download_config self) = Some d ->
  download_dir env self = (d, self)
  /\ get_download_path env self fd = get_download_path env' self fd
  /\ snd (get_download_path env self fd) = self.
Proof.
  intros H. split; [exact (download_dir_set env self d H)|].
  rewrite !get_download_path_by_cases.
  rewrite (download_dir_set env self d H), (download_dir_set env' self d H).
  split; [reflexivity|].
  now destruct (usable_relative_path fd).
Qed.

Lemma download_dir_override_respected_witness :
  download_dir Samples.env Samples.gcs_overridden
  = (parse "/data", Samples.gcs_overridden)
  /\ get_download_path Samples.env Samples.gcs_overridden
       (Samples.file_at (Some "a") None None)
     = get_download_path Samples.env_moved Samples.gcs_overridden
         (Samples.file_at (Some "a") None None)
  /\ snd (get_download_path Samples.env Samples.gcs_overridden
            (Samples.file_at (Some "a") None None))
     = Samples.gcs_overridden.
Proof.
  exact (download_dir_override_respected Samples.env Samples.env_moved
           Samples.gcs_overridden (parse "/data")
           (Samples.file_at (Some "a") None None) eq_refl).
Defined.

(** X6.  Asking again gives the same answer: a second call of
    [get_download_path] for the same descriptor, on the instance that the
    first call left and under whatever surroundings, returns what the
    first call returned. *)
Theorem get_download_path_repeatable env env' self fd :
  fst (get_download_path env' (snd (get_download_path env self fd)) fd)
  = fst (get_download_path env self fd).
Proof.
  rewrite !get_download_path_by_cases.
  destruct (usable_relative_path fd) as [rel|]; simpl; [|reflexivity].
  now rewrite (download_dir_set env' _ _ (download_dir_memoizes env self)).
Qed.




(** X8.  A connector type that begins with the separator takes the place
    of the whole default: the download directory is the resolved connector
    type, and the home directory plays no part. *)
Theorem default_download_dir_rooted_connector_type env self :
  DownloaderConfig.download_dir (download_config self) = None ->
  startswith_sep (connector_type self) = true ->
  fst (download_dir env self) = resolve env (parse (connector_type self)).
Proof.
  intros Hnone Hsep. unfold download_dir. rewrite Hnone. simpl.
  rewrite default_dir_unresolved_cache_root. unfold joinstr.
  now rewrite (joinpath_absolute _ _ (parse_absolute _ Hsep)).
Qed.

Lemma default_download_dir_rooted_connector_type_witness :
  fst (download_dir Samples.env Samples.rooted_type_default)
  = parse "/tmp/ingest".
Proof.
  exact (default_download_dir_rooted_connector_type Samples.env
           Samples.rooted_type_default eq_refl eq_refl).
Defined.



(** X10.  A relative path that is just the separator is not rejected: the
    download path is the download directory itself. *)
Theorem get_download_path_lone_separator env self fd ids :
  source_identifiers fd = Some ids ->
  relative_path ids = Some (String sep EmptyString) ->
  fst (get_download_path env self fd) = Some (fst (download_dir env self)).
Proof.
  intros Hids Hrel.
  rewrite get_download_path_by_cases,
    (usable_relative_path_some fd ids _ Hids Hrel) by discriminate.
  simpl fst. rewrite strip_leading_sep_cons.
  change (parse EmptyString) with (mkPath EmptyString []).
  now rewrite joinpath_empty.
Qed.

Lemma get_download_path_lone_separator_witness :
  fst (get_download_path Samples.env Samples.gcs_overridden
         (Samples.file_at (Some "/") None None))
  = Some (parse "/data").
Proof.
  exact (get_download_path_lone_separator Samples.env Samples.gcs_overridden
           (Samples.file_at (Some "/") None None)
           (mkSourceIdentifiers (Some "/")) eq_refl eq_refl).
Defined.

(** X14.  One instance, one directory: once the download directory has
    been read, whatever calls follow and whatever the surroundings become,
    the download path of every descriptor with a usable relative path is
    that same directory joined with the relative path less one leading
    separator; when what is left of the relative path does not begin with
    a separator and has no [..] component, the download path stays under
    that directory once [..] components are collapsed. *)
Theorem download_paths_share_directory env0 self l env fd ids rel :
  source_identifiers fd = Some ids ->
  relative_path ids = Some rel ->
  rel <> EmptyString ->
  fst (get_download_path env
         (Lifetime.steps l (snd (download_dir env0 self))) fd)
  = Some (fst (download_dir env0 self) // parse (strip_leading_sep rel))
  /\ (startswith_sep (strip_leading_sep rel) = false ->
      no_dotdot (parse (strip_leading_sep rel)) = true ->
      stays_under
        (fst (download_dir env0 self) // parse (strip_leading_sep rel))
        (fst (download_dir env0 self)) = true).
Proof.
  intros Hids Hrel Hne.
  pose proof (download_dir_memoizes env0 self) as Hm.
  rewrite (steps_set l _ _ Hm), get_download_path_by_cases,
    (usable_relative_path_some fd ids rel Hids Hrel Hne),
    (download_dir_set env _ _ Hm).
  split; [reflexivity|].
  intros Hsep Hdots.
  apply joinpath_stays_under; [now apply parse_relative | exact Hdots].
Qed.

Lemma download_paths_share_directory_witness :
  fst (get_download_path Samples.env_moved
         (Lifetime.steps
            [(Samples.env_moved, Lifetime.ReadDownloadDir);
             (Samples.env,
              Lifetime.CallGetDownloadPath Samples.file_without_identifiers)]
            (snd (download_dir Samples.env Samples.gcs_default)))
         (Samples.file_at (Some "/a/b.txt") None None))
  = Some (parse "/home/user/.cache/unstructured/ingest/download/gcs/a/b.txt")
  /\ stays_under
       (parse "/home/user/.cache/unstructured/ingest/download/gcs/a/b.txt")
       (parse "/home/user/.cache/unstructured/ingest/download/gcs") = true.
Proof.
  pose proof (download_paths_share_directory Samples.env Samples.gcs_default
                [(Samples.env_moved, Lifetime.ReadDownloadDir);
                 (Samples.env,
                  Lifetime.CallGetDownloadPath
                    Samples.file_without_identifiers)]
                Samples.env_moved
                (Samples.file_at (Some "/a/b.txt") None None)
                (mkSourceIdentifiers (Some "/a/b.txt")) "/a/b.txt"
                eq_refl eq_refl ltac:(discriminate)) as [H1 H2].
  split; [exact H1 | exact (H2 eq_refl eq_refl)].
Defined.

End DownloaderMore.

(** ** More on the GCS access configuration *)

Module GcsMore.
Import Py Pathlib Gcs GcsFacts.

Lemma truthy_str_true (k : string) : truthy_str k = true -> k <> EmptyString.
Proof.
  destruct k; [discriminate | discriminate].
Qed.

Lemma str_in_false (x : string) (l : list string) :
  str_in x l = false -> ~ In x l.
Proof.
  intros E H. apply str_in_In in H. congruence.
Qed.

Lemma new_ok_inv json_to_dict is_file validation_error key tok cfg :
  new json_to_dict is_file validation_error key tok = Ok cfg ->
  model_post_init json_to_dict is_file (mkGcsAccessConfig key tok) = Ok cfg.
Proof.
  unfold new.
  destruct (model_post_init json_to_dict is_file (mkGcsAccessConfig key tok));
    [now intros [= <-] | discriminate].
Qed.

(** X11.  Where a token comes from.  After a successful construction,
    whatever token was passed to it, the key is stored as given; with an
    absent or empty key the token is the one that was passed ([None] when
    none was); with a non-empty key the token passed is replaced, by the
    key itself where the key is a named mode or an existing file that does
    not parse to a JSON object, or by the mapping the key parses to where
    the key is not a named mode. *)
Theorem gcs_token_provenance
  (json_to_dict : string -> json) (is_file : Path -> Result bool)
  (validation_error : exn -> exn)
  (key : option string) (tok : option Token) (cfg : GcsAccessConfig) :
  new json_to_dict is_file validation_error key tok = Ok cfg ->
  service_account_key cfg = key
  /\ (truthy_opt_str key = false -> token cfg = tok)
  /\ (forall k, key = Some k -> k <> EmptyString ->
      (token cfg = Some (TokenStr k)
       /\ (In k ALLOWED_AUTH_VALUES
           \/ (is_dict (json_to_dict k) = false
               /\ is_file (parse k) = Ok true)))
      \/ (exists members,
            token cfg = Some (TokenDict members)
            /\ ~ In k ALLOWED_AUTH_VALUES
            /\ json_to_dict k = JObject members)).
Proof.
  intros Hnew. destruct (truthy_opt_str key) eqn:Ht.
  - destruct key as [k|]; [|discriminate]. simpl in Ht.
    rewrite (new_nonempty json_to_dict is_file validation_error k tok Ht)
      in Hnew.
    destruct (str_in k ALLOWED_AUTH_VALUES) eqn:Hm.
    + injection Hnew as <-. cbn [token service_account_key].
      split; [reflexivity|]. split; [discriminate|].
      intros k' [= <-] _. left. apply str_in_In in Hm. auto.
    + apply str_in_false in Hm.
      destruct (is_dict (json_to_dict k)) eqn:Hd.
      * destruct (json_to_dict k) as [| | | | |members] eqn:Hj;
          try discriminate Hd.
        injection Hnew as <-. cbn [token service_account_key].
        split; [reflexivity|]. split; [discriminate|].
        intros k' [= <-] _. right. exists members. auto.
      * destruct (is_file (parse k)) as [[|]|e] eqn:Hf; try discriminate Hnew.
        injection Hnew as <-. cbn [token service_account_key].
        split; [reflexivity|]. split; [discriminate|].
        intros k' [= <-] _. left. auto.
  - rewrite (new_falsy json_to_dict is_file validation_error key tok Ht)
      in Hnew.
    injection Hnew as <-. cbn [token service_account_key].
    split; [reflexivity|]. split; [reflexivity|].
    intros k -> Hne. destruct k; [contradiction | discriminate Ht].
Qed.

Lemma gcs_token_provenance_witness :
  token (mkGcsAccessConfig (Some EmptyString) (Some (TokenStr "abc")))
  = Some (TokenStr "abc")
  /\ new Samples.json_to_dict Samples.is_file Samples.validation_error
       (Some EmptyString) (Some (TokenStr "abc"))
     = Ok (mkGcsAccessConfig (Some EmptyString) (Some (TokenStr "abc"))).
Proof.
  pose proof (gcs_token_provenance Samples.json_to_dict Samples.is_file
                Samples.validation_error (Some EmptyString)
                (Some (TokenStr "abc"))
                (mkGcsAccessConfig (Some EmptyString) (Some (TokenStr "abc")))
                eq_refl) as [_ [H _]].
  split; [exact (H eq_refl) | reflexivity].
Defined.

(** A token passed along with a key that names a file is replaced. *)
Example gcs_passed_token_replaced :
  new Samples.json_to_dict Samples.is_file Samples.validation_error
    (Some "/tmp/key.json") (Some (TokenStr "abc"))
  = Ok (mkGcsAccessConfig (Some "/tmp/key.json")
          (Some (TokenStr "/tmp/key.json"))).
Proof. reflexivity. Qed.

(** X12.  [model_post_init] raises exactly when the key is a non-empty
    string that is no named mode and does not parse to a JSON object, and
    [Path(key).is_file()] does not answer [True]: when it answers [False]
    the exception is the [ValueError] of the last line, and when it raises
    the exception is its own. *)
Theorem model_post_init_raises_iff
  (json_to_dict : string -> json) (is_file : Path -> Result bool)
  (self : GcsAccessConfig) (e : exn) :
  model_post_init json_to_dict is_file self = Raise e <->
  exists k,
    service_account_key self = Some k /\ k <> EmptyString
    /\ ~ In k ALLOWED_AUTH_VALUES
    /\ is_dict (json_to_dict k) = false
    /\ ((is_file (parse k) = Ok false
         /\ e = ValueError "Invalid auth token value")
        \/ is_file (parse k) = Raise e).
Proof.
  split.
  - destruct (truthy_opt_str (service_account_key self)) eqn:Ht.
    + destruct (service_account_key self) as [k|] eqn:Hk; [|discriminate].
      simpl in Ht.
      rewrite (model_post_init_nonempty json_to_dict is_file self k Hk Ht).
      destruct (str_in k ALLOWED_AUTH_VALUES) eqn:Hm; [discriminate|].
      destruct (is_dict (json_to_dict k)) eqn:Hd.
      * destruct (json_to_dict k); discriminate.
      * pose proof (truthy_str_true k Ht). pose proof (str_in_false _ _ Hm).
        destruct (is_file (parse k)) as [[|]|e'] eqn:Hf; simpl;
          [discriminate| |]; intros [= <-]; exists k; auto 8.
    + now rewrite (model_post_init_falsy json_to_dict is_file self Ht).
  - intros (k & Hk & Hne & Hm & Hd & Hf).
    rewrite (model_post_init_nonempty json_to_dict is_file self k Hk
               (truthy_str_nonempty k Hne)).
    rewrite (str_in_not_In k _ Hm), Hd.
    destruct Hf as [[-> ->]| ->]; reflexivity.
Qed.

Lemma model_post_init_raises_iff_witness :
  model_post_init Samples.json_to_dict Samples.is_file
    (mkGcsAccessConfig (Some "gs://bucket") None)
  = Raise (ValueError "Invalid auth token value").
Proof.
  apply (proj2 (model_post_init_raises_iff Samples.json_to_dict
                  Samples.is_file
                  (mkGcsAccessConfig (Some "gs://bucket") None)
                  (ValueError "Invalid auth token value"))).
  exists "gs://bucket".
  split; [reflexivity|]. split; [discriminate|].
  split; [simpl; intros [H|[H|[H|[H|[H|[]]]]]]; discriminate|].
  split; [reflexivity|]. left. split; reflexivity.
Defined.

(** X13.  Running the hook again changes nothing: on the instance that a
    successful [model_post_init] leaves, whatever token it started with,
    [model_post_init] succeeds and returns that instance. *)
Theorem model_post_init_idempotent
  (json_to_dict : string -> json) (is_file : Path -> Result bool)
  (self cfg : GcsAccessConfig) :
  model_post_init json_to_dict is_file self = Ok cfg ->
  model_post_init json_to_dict is_file cfg = Ok cfg.
Proof.
  destruct (truthy_opt_str (service_account_key self)) eqn:Ht.
  - destruct (service_account_key self) as [k|] eqn:Hk; [|discriminate].
    simpl in Ht.
    rewrite (model_post_init_nonempty json_to_dict is_file self k Hk Ht).
    destruct (str_in k ALLOWED_AUTH_VALUES) eqn:Hm.
    + intros [= <-].
      rewrite (model_post_init_nonempty json_to_dict is_file _ k
                 (Hk : service_account_key (with_token self _) = Some k) Ht).
      now rewrite Hm.
    + destruct (is_dict (json_to_dict k)) eqn:Hd.
      * destruct (json_to_dict k) as [| | | | |members] eqn:Hj;
          try discriminate Hd.
        intros [= <-].
        rewrite (model_post_init_nonempty json_to_dict is_file _ k
                   (Hk : service_account_key (with_token self _) = Some k) Ht).
        now rewrite Hm, Hj.
      * destruct (is_file (parse k)) as [[|]|e] eqn:Hf; try discriminate.
        intros [= <-].
        rewrite (model_post_init_nonempty json_to_dict is_file _ k
                   (Hk : service_account_key (with_token self _) = Some k) Ht).
        now rewrite Hm, Hd, Hf.
  - rewrite (model_post_init_falsy json_to_dict is_file self Ht).
    intros [= <-]. exact (model_post_init_falsy json_to_dict is_file self Ht).
Qed.

Lemma model_post_init_idempotent_witness :
  model_post_init Samples.json_to_dict Samples.is_file
    (mkGcsAccessConfig (Some "{}") (Some (TokenDict [])))
  = Ok (mkGcsAccessConfig (Some "{}") (Some (TokenDict []))).
Proof.
  exact (model_post_init_idempotent Samples.json_to_dict Samples.is_file
           (mkGcsAccessConfig (Some "{}") None)
           (mkGcsAccessConfig (Some "{}") (Some (TokenDict [])))
           eq_refl).
Defined.

End GcsMore.
